(** * ExportSassVarsToJS: the webpack configuration module

    A shallow embedding of [webpack.config.js]: the JavaScript values the
    module builds, the module-level bindings it creates when it is loaded,
    the exported factory that writes [mode] and [devtool] into the shared
    [config] object, and the regular expressions used as rule tests
    together with the matcher that [RegExp.prototype.test] runs. *)

From Stdlib Require Import Ascii String NArith ZArith.
From stdpp Require Import gmap strings list.

#[local] Set Warnings "-register-all".

Local Open Scope string_scope.

(** ** Regular expressions

    The fragment of the ECMAScript pattern grammar that the rule tests of
    the configuration use.  Characters of a pattern are ASCII; the subject
    of a match is a JavaScript string, a sequence of 16-bit code units,
    written here as a list of [N]. *)

Inductive regex : Type :=
| Empty
| Char (c : ascii)
| Class (cs : list ascii)
| Seq (r1 r2 : regex)
| Alt (r1 r2 : regex)
| Opt (r : regex)
| EndAnchor.

Record RegExp : Type := mkRegExp { source : regex; ignoreCase : bool }.

(** The terms of one alternative, in sequence. *)
Fixpoint seq (rs : list regex) : regex :=
  match rs with
  | [] => Empty
  | [r] => r
  | r :: rs' => Seq r (seq rs')
  end.

(** A run of pattern characters, as in [/node_modules/]. *)
Definition lit (s : string) : regex := seq (map Char (list_ascii_of_string s)).

(** A group of literal alternatives, as in [(ts|tsx)]. *)
Fixpoint alts (ws : list string) : regex :=
  match ws with
  | [] => Empty
  | [w] => lit w
  | w :: ws' => Alt (lit w) (alts ws')
  end.

Definition code (c : ascii) : N := N_of_ascii c.

Definition units (s : string) : list N := map code (list_ascii_of_string s).

Section Matcher.

(** The single-code-unit upper-casing of the host's Unicode tables.  Only
    its values on code units from 128 on are consulted. *)
Variable toUpperCase : N -> N.

(** Canonicalize of ECMA-262 for a pattern without the [u] flag: a code
    unit is upper-cased, except that a code unit from 128 on is never
    mapped below 128. *)
Definition Canonicalize (ch : N) : N :=
  if (ch <? 128)%N then
    if ((97 <=? ch) && (ch <=? 122))%N then (ch - 32)%N else ch
  else
    let cu := toUpperCase ch in
    if (cu <? 128)%N then ch else cu.

Definition same_char (ic : bool) (a ch : N) : bool :=
  if ic then (Canonicalize a =? Canonicalize ch)%N else (a =? ch)%N.

(** The backtracking matcher, in continuation style: [x] is the part of
    the subject from the current index to its end, [k] is what has to
    match after [r].  An optional term is tried first (greedy), and an
    iteration that consumed nothing is rejected before it is skipped. *)
Fixpoint rmatch (ic : bool) (r : regex) (x : list N)
         (k : list N -> bool) : bool :=
  match r with
  | Empty => k x
  | Char c =>
      match x with
      | ch :: x' => same_char ic (code c) ch && k x'
      | [] => false
      end
  | Class cs =>
      match x with
      | ch :: x' => existsb (fun c => same_char ic (code c) ch) cs && k x'
      | [] => false
      end
  | Seq r1 r2 => rmatch ic r1 x (fun y => rmatch ic r2 y k)
  | Alt r1 r2 => rmatch ic r1 x k || rmatch ic r2 x k
  | Opt r1 =>
      rmatch ic r1 x
        (fun y => if (length y =? length x)%nat then false else k y)
      || k x
  | EndAnchor =>
      match x with
      | [] => k []
      | _ :: _ => false
      end
  end.

(** A match attempt at every index from the current one to the end. *)
Fixpoint search (ic : bool) (r : regex) (x : list N) : bool :=
  rmatch ic r x (fun _ => true)
  || match x with
     | [] => false
     | _ :: x' => search ic r x'
     end.

(** [re.test(s)] for a pattern without the [g] and [y] flags. *)
Definition test (re : RegExp) (s : list N) : bool :=
  search (ignoreCase re) (source re) s.

End Matcher.

(** ** JavaScript values

    Object literals keep their properties in insertion order.  Nested
    objects and arrays of the configuration are never written after they are
    built, so they are embedded by value; the one object the module writes
    to, [config], lives in the heap (see below). *)

Inductive value : Type :=
| VUndefined
| VBool (b : bool)
| VNum (n : Z)
| VStr (s : string)
| VRegExp (re : RegExp)
| VArray (elems : list value)
| VObject (props : list (string * value))
| VNew (ctor : string) (args : list value).

Abbreviation object := (list (string * value)).

Fixpoint lookup_prop (k : string) (o : object) : option value :=
  match o with
  | [] => None
  | (k', v) :: o' => if String.eqb k k' then Some v else lookup_prop k o'
  end.

(** [o[k] = v]: an existing property keeps its place, a new one is added
    at the end. *)
Fixpoint set_prop (k : string) (v : value) (o : object) : object :=
  match o with
  | [] => [(k, v)]
  | (k', v') :: o' =>
      if String.eqb k k' then (k', v) :: o' else (k', v') :: set_prop k v o'
  end.

Definition has_prop (k : string) (v : value) : bool :=
  match v with
  | VObject o => match lookup_prop k o with Some _ => true | None => false end
  | _ => false
  end.

(** [v.k] (undefined when the property is absent). *)
Definition get (k : string) (v : value) : value :=
  match v with
  | VObject o => default VUndefined (lookup_prop k o)
  | _ => VUndefined
  end.

(** [v[i]] on an array. *)
Definition elem (i : nat) (v : value) : value :=
  match v with
  | VArray vs => nth i vs VUndefined
  | _ => VUndefined
  end.

Definition elems_of (v : value) : list value :=
  match v with
  | VArray vs => vs
  | _ => []
  end.

Definition keys (v : value) : list string :=
  match v with
  | VObject o => map fst o
  | _ => []
  end.

(** ** The host: what the module reads from Node and from its dependencies *)

Record host : Type := mkHost {
  (** [process.env.NODE_ENV]: a string, or undefined when the variable is
      not set *)
  NODE_ENV : option string;
  __dirname : string;
  (** [path.resolve] of Node's [path] module, at two arguments *)
  path_resolve : string -> string -> string;
  (** the [loader] property of the [mini-css-extract-plugin] module: the
      resolved path of the loader file of the package *)
  MiniCssExtractPlugin_loader : string
}.

(** [x == 'lit'] where [x] is a string or undefined: undefined is not
    loosely equal to a string, two strings are compared by content. *)
Definition loose_eq_string (x : option string) (l : string) : bool :=
  match x with
  | Some s => String.eqb s l
  | None => false
  end.

(** ** The rule tests *)

(** [/\.s[ac]ss$/i] *)
Definition sass_test : RegExp :=
  mkRegExp (seq [Char "."; Char "s"; Class ["a"; "c"]%char; Char "s";
                 Char "s"; EndAnchor]) true.

(** [/\.css$/i] *)
Definition css_test : RegExp :=
  mkRegExp (seq [Char "."; lit "css"; EndAnchor]) true.

(** [/\.?js$/] *)
Definition js_test : RegExp :=
  mkRegExp (seq [Opt (Char "."); lit "js"; EndAnchor]) false.

(** [/\.(ts|tsx)$/i] *)
Definition ts_test : RegExp :=
  mkRegExp (seq [Char "."; alts ["ts"; "tsx"]; EndAnchor]) true.

(** [/\.(eot|svg|ttf|woff|woff2|png|jpg|gif)$/i] *)
Definition asset_test : RegExp :=
  mkRegExp (seq [Char ".";
                 alts ["eot"; "svg"; "ttf"; "woff"; "woff2"; "png"; "jpg";
                       "gif"];
                 EndAnchor]) true.

(** [/node_modules/] *)
Definition node_modules_re : RegExp := mkRegExp (lit "node_modules") false.

(** ** The [config] object literal *)

Definition config_literal (ho : host) (isProduction : bool)
           (stylesHandler : value) : object :=
  [ ("entry", VStr "./src/index.js");
    ("output", VObject
       [ ("path", VStr (path_resolve ho (__dirname ho) "dist"));
         ("clean", VBool true) ]);
    ("plugins", VArray
       [ VNew "MiniCssExtractPlugin" [];
         VNew "HtmlWebpackPlugin"
              [VObject [("template", VStr "index.html")]] ]);
    ("module", VObject
       [ ("rules", VArray
            [ VObject
                [ ("test", VRegExp sass_test);
                  ("use", VArray
                     [ (if isProduction then stylesHandler
                        else VStr "style-loader");
                       VObject
                         [ ("loader", VStr "css-loader");
                           ("options", VObject
                              [ ("sourceMap", VBool true);
                                ("importLoaders", VNum 1);
                                ("modules", VObject
                                   [("mode", VStr "icss")]) ]) ];
                       VStr "postcss-loader";
                       VStr "sass-loader" ]) ];
              VObject
                [ ("test", VRegExp css_test);
                  ("use", VArray
                     [ stylesHandler; VStr "css-loader";
                       VStr "postcss-loader" ]) ];
              VObject
                [ ("test", VRegExp js_test);
                  ("exclude", VRegExp node_modules_re);
                  ("use", VObject
                     [ ("loader", VStr "babel-loader");
                       ("options", VObject
                          [ ("presets", VArray
                               [ VStr "@babel/preset-env";
                                 VStr "@babel/preset-react" ]) ]) ]) ];
              VObject
                [ ("test", VRegExp ts_test);
                  ("loader", VStr "ts-loader");
                  ("exclude", VArray [VStr "/node_modules/"]) ];
              VObject
                [ ("test", VRegExp asset_test);
                  ("type", VStr "asset") ] ]) ]);
    ("resolve", VObject
       [ ("alias", VObject
            [ ("@", VStr (path_resolve ho (__dirname ho) "./src/")) ]);
         ("extensions", VArray
            [ VStr ".tsx"; VStr ".ts"; VStr ".jsx"; VStr ".js";
              VStr "..." ]) ]) ].

(** ** Module state

    The heap maps the address of an object to its properties.  Loading the
    module allocates [config] once; the bindings of the module scope are
    constants. *)

Abbreviation loc := positive.
Abbreviation heap := (gmap positive (list (string * value))).

Record module_scope : Type := mkScope {
  stylesHandler : value;
  isProduction : bool;
  config : loc
}.

(** The module body from the declaration of [config] on, for a given value
    of [isProduction]. *)
Definition module_body (ho : host) (isProd : bool) (h : heap)
  : module_scope * heap :=
  let handler := VStr (MiniCssExtractPlugin_loader ho) in
  let l := fresh (dom h) in
  (mkScope handler isProd l, <[l := config_literal ho isProd handler]> h).

(** Loading the module: [isProduction] is computed once, from the
    environment as it is at load time. *)
Definition load (ho : host) (h : heap) : module_scope * heap :=
  module_body ho (loose_eq_string (NODE_ENV ho) "production") h.

(** [o.k = v] through a reference. *)
Definition assign (l : loc) (k : string) (v : value) (h : heap) : heap :=
  alter (set_prop k v) l h.

(** The exported factory. *)
Definition module_exports (m : module_scope) (h : heap) : loc * heap :=
  if isProduction m then
    let h1 := assign (config m) "mode" (VStr "production") h in
    (config m, h1)
  else
    let h1 := assign (config m) "mode" (VStr "development") h in
    let h2 := assign (config m) "devtool" (VStr "source-map") h1 in
    (config m, h2).

(** The heap after [n] invocations of the factory. *)
Fixpoint invocations (n : nat) (m : module_scope) (h : heap) : heap :=
  match n with
  | O => h
  | S n' => snd (module_exports m (invocations n' m h))
  end.

(** What a reference denotes in a heap. *)
Definition deref (h : heap) (l : loc) : value :=
  match h !! l with
  | Some o => VObject o
  | None => VUndefined
  end.

(** The configuration the caller holds after invocation [n + 1] of the
    factory of a module loaded in heap [h0] with [isProduction = isProd]. *)
Definition produced (ho : host) (isProd : bool) (h0 : heap) (n : nat)
  : value :=
  let '(m, h) := module_body ho isProd h0 in
  let '(l, h') := module_exports m (invocations n m h) in
  deref h' l.

(** The same for the module as loaded from the environment. *)
Definition returned (ho : host) (h0 : heap) (n : nat) : value :=
  let '(m, h) := load ho h0 in
  let '(l, h') := module_exports m (invocations n m h) in
  deref h' l.

(** The writes of one invocation, as a function on the properties of
    [config]. *)
Definition write_mode (isProd : bool) (o : object) : object :=
  if isProd then set_prop "mode" (VStr "production") o
  else set_prop "devtool" (VStr "source-map")
         (set_prop "mode" (VStr "development") o).

(** * Reading a configuration *)

Definition rules (cfg : value) : list value :=
  elems_of (get "rules" (get "module" cfg)).

Definition rule (i : nat) (cfg : value) : value :=
  elem i (get "rules" (get "module" cfg)).

(** [r.use[i]] *)
Definition step (i : nat) (r : value) : value := elem i (get "use" r).

(** The loaders of a rule: the array under [use], a single [use] entry, or
    the [loader] and [options] written on the rule itself. *)
Definition steps (r : value) : list value :=
  match get "use" r with
  | VArray vs => vs
  | VUndefined =>
      match get "loader" r with
      | VUndefined => []
      | l => [VObject [("loader", l); ("options", get "options" r)]]
      end
  | u => [u]
  end.

(** Whether a loader entry asks css-loader for the interoperable-CSS mode:
    [options.modules.mode] is the string [icss].  A loader named by a bare
    string has no options. *)
Definition icss_step (st : value) : bool :=
  match get "mode" (get "modules" (get "options" st)) with
  | VStr m => String.eqb m "icss"
  | _ => false
  end.

Definition uses_icss (r : value) : bool := existsb icss_step (steps r).

(** ** Blanking the mode-dependent places of a configuration *)

Definition delete_prop (k : string) (v : value) : value :=
  match v with
  | VObject o =>
      VObject (List.filter (fun kv => negb (String.eqb k (fst kv))) o)
  | _ => v
  end.

Definition update_prop (k : string) (f : value -> value) (v : value) : value :=
  match v with
  | VObject o =>
      VObject (map (fun kv => if String.eqb k (fst kv)
                              then (fst kv, f (snd kv)) else kv) o)
  | _ => v
  end.

Definition update_elem (i : nat) (f : value -> value) (v : value) : value :=
  match v with
  | VArray vs => VArray (alter f i vs)
  | _ => v
  end.

(** The configuration without [mode] and [devtool], and with
    [module.rules[0].use[0]] overwritten by undefined. *)
Definition blank_mode_dependent (cfg : value) : value :=
  delete_prop "mode"
    (delete_prop "devtool"
       (update_prop "module"
          (update_prop "rules"
             (update_elem 0
                (update_prop "use"
                   (update_elem 0 (fun _ => VUndefined))))) cfg)).

(** ** Hosts to run the module on *)

Definition strip_dot_slash (p : string) : string :=
  match p with
  | String "." (String "/" p') => p'
  | _ => p
  end.

Fixpoint strip_trailing_slash (p : string) : string :=
  match p with
  | EmptyString => EmptyString
  | String "/" EmptyString => EmptyString
  | String c p' => String c (strip_trailing_slash p')
  end.

(** What [path.resolve] gives for an absolute directory and a plain
    relative path such as [dist] or [./src/]. *)
Definition resolve_under (dir p : string) : string :=
  dir ++ "/" ++ strip_trailing_slash (strip_dot_slash p).

Definition project_host (env : option string) : host :=
  mkHost env "/project" resolve_under
         "/project/node_modules/mini-css-extract-plugin/dist/loader.js".

(** ** Words of a pattern

    A pattern of the fragment has finitely many words.  They are kept in
    normal form: canonicalized when the pattern ignores case, as they are
    otherwise.  The end anchor consumes nothing. *)

Section Words.

Variable toUpperCase : N -> N.

Definition norm (ic : bool) (a : N) : N :=
  if ic then Canonicalize toUpperCase a else a.

Fixpoint words (ic : bool) (r : regex) : list (list N) :=
  match r with
  | Empty => [[]]
  | Char c => [[norm ic (code c)]]
  | Class cs => map (fun c => [norm ic (code c)]) cs
  | Seq r1 r2 =>
      flat_map (fun w1 => map (app w1) (words ic r2)) (words ic r1)
  | Alt r1 r2 => words ic r1 ++ words ic r2
  | Opt r1 => words ic r1 ++ [[]]
  | EndAnchor => [[]]
  end.

(** Every match of the pattern ends at the end of the subject. *)
Fixpoint anchored (r : regex) : bool :=
  match r with
  | Seq _ r2 => anchored r2
  | Alt r1 r2 => anchored r1 && anchored r2
  | EndAnchor => true
  | _ => false
  end.

(** The words of a pattern, all canonicalized. *)
Definition upper_words (re : RegExp) : list (list N) :=
  if ignoreCase re then words true (source re)
  else map (map (Canonicalize toUpperCase)) (words false (source re)).

(** No word of one pattern is the end of a word of the other. *)
Definition apart (re1 re2 : RegExp) : bool :=
  forallb (fun u1 =>
    forallb (fun u2 =>
      negb (bool_decide (u1 `suffix_of` u2)
            || bool_decide (u2 `suffix_of` u1)))
      (upper_words re2))
    (upper_words re1).

(** [rule.test.test(s)] *)
Definition rule_matches (s : list N) (r : value) : bool :=
  match get "test" r with
  | VRegExp re => test toUpperCase re s
  | _ => false
  end.

Definition matching_rules (cfg : value) (s : list N) : list value :=
  List.filter (rule_matches s) (rules cfg).

End Words.

(** ** Shapes of patterns *)

(** The pattern has no end anchor. *)
Fixpoint anchor_free (r : regex) : bool :=
  match r with
  | Empty | Char _ | Class _ => true
  | Seq r1 r2 | Alt r1 r2 => anchor_free r1 && anchor_free r2
  | Opt r1 => anchor_free r1
  | EndAnchor => false
  end.

(** The pattern is a sequence of anchor-free terms closed by one end
    anchor, as the five rule tests are. *)
Fixpoint tail_anchored (r : regex) : bool :=
  match r with
  | EndAnchor => true
  | Seq r1 r2 => anchor_free r1 && tail_anchored r2
  | _ => false
  end.

(** Upper-casing of the ASCII letters of a code unit. *)
Definition ascii_upper (ch : N) : N :=
  if ((97 <=? ch) && (ch <=? 122))%N then (ch - 32)%N else ch.

Section Endings.

Variable toUpperCase : N -> N.

(** No canonicalized word of the pattern is an end of [u0], nor [u0] an
    end of one of them. *)
Definition ends_apart (u0 : list N) (re : RegExp) : bool :=
  forallb (fun u =>
    negb (bool_decide (u `suffix_of` u0) || bool_decide (u0 `suffix_of` u)))
    (upper_words toUpperCase re).

End Endings.

(** [cfg.resolve.extensions] *)
Definition extensions (cfg : value) : list value :=
  elems_of (get "extensions" (get "resolve" cfg)).

(** ** The configuration shown in the README

    The README explains the technique on a smaller configuration: one rule
    for [.scss] files; the parts it elides are not modelled. *)

(** [/\.scss$/] *)
Definition readme_scss_test : RegExp :=
  mkRegExp (seq [Char "."; lit "scss"; EndAnchor]) false.

Definition readme_rule : value :=
  VObject
    [ ("test", VRegExp readme_scss_test);
      ("use", VArray
         [ VStr "style-loader";
           VObject
             [ ("loader", VStr "css-loader");
               ("options", VObject
                  [ ("importLoaders", VNum 1);
                    ("modules", VObject [("mode", VStr "icss")]) ]) ];
           VStr "sass-loader" ]) ].

Definition readme_config : value :=
  VObject [("module", VObject [("rules", VArray [readme_rule])])].

(** ** css-loader as a collaborator

    What css-loader does with a file is not part of this repository.  Its
    decision to honour the [:export] blocks of a file is taken as a
    function of the [modules] option of its loader entry and of the name of
    the file. *)




Section Exports.

Variable toUpperCase : N -> N.
Variable css_loader : value -> list N -> bool.



End Exports.



Local Open Scope list_scope.

(** * Properties of objects *)

Lemma lookup_set_prop_eq k v o : lookup_prop k (set_prop k v o) = Some v.
Proof.
  induction o as [|[k' v'] o IH]; simpl.
  - by rewrite String.eqb_refl.
  - destruct (String.eqb k k') eqn:E; simpl; rewrite E; [done | apply IH].
Qed.

Lemma lookup_set_prop_ne k k' v o :
  k <> k' -> lookup_prop k (set_prop k' v o) = lookup_prop k o.
Proof.
  intros Hne. induction o as [|[k2 v2] o IH]; simpl.
  - destruct (String.eqb_spec k k'); [contradiction | done].
  - destruct (String.eqb_spec k' k2) as [->|Hk]; simpl.
    + destruct (String.eqb_spec k k2); [contradiction | done].
    + by rewrite IH.
Qed.

Lemma set_prop_same k v o : lookup_prop k o = Some v -> set_prop k v o = o.
Proof.
  induction o as [|[k' v'] o IH]; simpl; [done|].
  destruct (String.eqb_spec k k') as [->|Hk].
  - by intros [= ->].
  - intros H. by rewrite IH.
Qed.

Lemma set_prop_idemp k v o : set_prop k v (set_prop k v o) = set_prop k v o.
Proof. apply set_prop_same, lookup_set_prop_eq. Qed.

Lemma write_mode_idemp b o : write_mode b (write_mode b o) = write_mode b o.
Proof.
  destruct b; unfold write_mode; [apply set_prop_idemp|].
  set (o1 := set_prop "mode" (VStr "development") o).
  rewrite (set_prop_same "mode" (VStr "development")).
  - apply set_prop_idemp.
  - rewrite lookup_set_prop_ne by done. apply lookup_set_prop_eq.
Qed.

(** * The factory on the heap *)

Lemma module_exports_alter m h :
  module_exports m h
  = (config m, alter (write_mode (isProduction m)) (config m) h).
Proof.
  unfold module_exports, assign, write_mode.
  destruct (isProduction m); [done|]. f_equal.
  apply map_eq; intros i. rewrite !lookup_alter.
  repeat case_decide; try done. by destruct (h !! config m).
Qed.

Lemma module_exports_at m h o :
  h !! config m = Some o ->
  module_exports m h
  = (config m, <[config m := write_mode (isProduction m) o]> h).
Proof.
  intros Ho. rewrite module_exports_alter. f_equal.
  apply map_eq; intros i. rewrite lookup_alter, lookup_insert.
  case_decide; [|done]. by rewrite Ho.
Qed.

Lemma module_exports_twice m h :
  module_exports m (snd (module_exports m h)) = module_exports m h.
Proof.
  rewrite !module_exports_alter; simpl. f_equal.
  apply map_eq; intros i. rewrite !lookup_alter.
  repeat case_decide; try done.
  destruct (h !! config m); simpl; [|done]. by rewrite write_mode_idemp.
Qed.

Lemma invocations_S n m h :
  invocations (S n) m h = snd (module_exports m h).
Proof.
  induction n as [|n IH]; [done|].
  change (invocations (S (S n)) m h)
    with (snd (module_exports m (invocations (S n) m h))).
  by rewrite IH, module_exports_twice.
Qed.

Lemma module_exports_invocations n m h :
  module_exports m (invocations n m h) = module_exports m h.
Proof.
  destruct n; [done|]. by rewrite invocations_S, module_exports_twice.
Qed.

Lemma fresh_unallocated (h : heap) : h !! fresh (dom h) = None.
Proof. apply not_elem_of_dom, is_fresh. Qed.

(** The caller always holds the literal with the writes of one invocation
    applied. *)
Lemma produced_eq ho b h0 n :
  produced ho b h0 n
  = VObject (write_mode b
               (config_literal ho b (VStr (MiniCssExtractPlugin_loader ho)))).
Proof.
  unfold produced, module_body.
  rewrite module_exports_invocations.
  erewrite module_exports_at by apply lookup_insert_eq.
  cbn [config isProduction]. unfold deref. by rewrite lookup_insert_eq.
Qed.

Lemma returned_produced ho h0 n :
  returned ho h0 n
  = produced ho (loose_eq_string (NODE_ENV ho) "production") h0 n.
Proof. reflexivity. Qed.

Lemma loose_eq_production_true env :
  env = Some "production" -> loose_eq_string env "production" = true.
Proof. by intros ->. Qed.

Lemma loose_eq_production_false env :
  env <> Some "production" -> loose_eq_string env "production" = false.
Proof.
  destruct env as [s|]; simpl; [|done].
  destruct (String.eqb_spec s "production") as [->|]; [|done].
  by intros [].
Qed.

(** * The configuration in each mode *)

(** C1. When NODE_ENV is the string production, every invocation of the
    factory returns a configuration whose mode is production, that has no
    devtool property, and whose sass/scss rule starts with
    MiniCssExtractPlugin.loader. *)
Theorem production_configuration ho (h0 : heap) n :
  NODE_ENV ho = Some "production" ->
  let cfg := returned ho h0 n in
  get "mode" cfg = VStr "production"
  /\ has_prop "devtool" cfg = false
  /\ get "test" (rule 0 cfg) = VRegExp sass_test
  /\ step 0 (rule 0 cfg) = VStr (MiniCssExtractPlugin_loader ho).
Proof.
  intros Henv. cbv zeta.
  rewrite returned_produced, (loose_eq_production_true _ Henv), produced_eq.
  repeat split.
Qed.

Lemma production_configuration_witness :
  NODE_ENV (project_host (Some "production")) = Some "production"
  /\ get "mode" (returned (project_host (Some "production")) ∅ 2)
     = VStr "production".
Proof.
  split; [reflexivity|].
  apply (production_configuration (project_host (Some "production")) ∅ 2).
  reflexivity.
Defined.

(** C2. For any other value of NODE_ENV, unset included, the factory still
    returns an object: its mode is development, its devtool is source-map,
    and its sass/scss rule starts with style-loader. *)
Theorem development_configuration ho (h0 : heap) n :
  NODE_ENV ho <> Some "production" ->
  let cfg := returned ho h0 n in
  (exists o, cfg = VObject o)
  /\ get "mode" cfg = VStr "development"
  /\ get "devtool" cfg = VStr "source-map"
  /\ get "test" (rule 0 cfg) = VRegExp sass_test
  /\ step 0 (rule 0 cfg) = VStr "style-loader".
Proof.
  intros Henv. cbv zeta.
  rewrite returned_produced, (loose_eq_production_false _ Henv), produced_eq.
  split; [by eexists|]. repeat split.
Qed.

Lemma development_configuration_witness :
  NODE_ENV (project_host None) <> Some "production"
  /\ NODE_ENV (project_host (Some "")) <> Some "production"
  /\ NODE_ENV (project_host (Some "Production")) <> Some "production"
  /\ get "mode" (returned (project_host None) ∅ 0) = VStr "development"
  /\ get "mode" (returned (project_host (Some "")) ∅ 0) = VStr "development"
  /\ get "devtool" (returned (project_host (Some "Production")) ∅ 1)
     = VStr "source-map".
Proof.
  split; [discriminate|]. split; [discriminate|]. split; [discriminate|].
  split; [|split].
  - apply (development_configuration (project_host None) ∅ 0). discriminate.
  - apply (development_configuration (project_host (Some "")) ∅ 0).
    discriminate.
  - apply (development_configuration (project_host (Some "Production")) ∅ 1).
    discriminate.
Defined.

(** C3. For either value of the production flag, two invocations of the
    factory give structurally identical configurations: the second returns
    the reference the first returned, the object it denotes has the same
    properties after either, and no number of earlier invocations or
    initial heap changes what the caller sees. *)
Theorem factory_idempotent ho b (h0 : heap) :
  (let '(m, h) := module_body ho b h0 in
   let '(l1, h1) := module_exports m h in
   let '(l2, h2) := module_exports m h1 in
   l1 = l2 /\ is_Some (h1 !! l1) /\ deref h1 l1 = deref h2 l2)
  /\ forall (h0' : heap) n n', produced ho b h0 n = produced ho b h0' n'.
Proof.
  split.
  - unfold module_body.
    erewrite module_exports_at by apply lookup_insert_eq.
    cbn [config isProduction].
    erewrite module_exports_at by apply lookup_insert_eq.
    cbn [config isProduction]. rewrite write_mode_idemp, !insert_insert_eq.
    split; [reflexivity|]. split; [|reflexivity].
    rewrite lookup_insert_eq. by eexists.
  - intros h0' n n'. by rewrite !produced_eq.
Qed.

(** * The factory and the shared [config] object *)

(** C4, as stated, fails: with NODE_ENV unset, the reference the factory
    returns was allocated before the invocation, the properties stored there
    differ before and after it, and the next invocation returns the same
    reference. *)
Lemma factory_reuses_and_writes_config :
  let '(m, h) := load (project_host None) ∅ in
  let '(l, h1) := module_exports m h in
  is_Some (h !! l) /\ h1 !! l <> h !! l /\ fst (module_exports m h1) = l.
Proof.
  unfold load, module_body.
  erewrite module_exports_at by apply lookup_insert_eq.
  cbn [config isProduction]. rewrite !lookup_insert_eq.
  split; [by eexists|]. split; [|by rewrite module_exports_alter].
  intros H. apply (f_equal (option_map (@length _))) in H.
  vm_compute in H. discriminate.
Qed.

(** C4, amended. The factory is a total function of the module scope and
    the heap.  It allocates nothing: it returns the reference to the one
    [config] object built when the module was loaded, after writing [mode]
    (and [devtool] in development) into it.  No other heap cell changes, and
    a further invocation changes nothing at all. *)
Theorem factory_writes_shared_config ho b (h0 : heap) :
  let '(m, h) := module_body ho b h0 in
  let '(l, h1) := module_exports m h in
  let literal := config_literal ho b (VStr (MiniCssExtractPlugin_loader ho)) in
  l = config m
  /\ h0 !! l = None
  /\ h !! l = Some literal
  /\ h1 !! l = Some (write_mode b literal)
  /\ (forall l', l' <> l -> h1 !! l' = h !! l')
  /\ dom h1 = dom h
  /\ module_exports m h1 = (l, h1).
Proof.
  unfold module_body.
  erewrite module_exports_at by apply lookup_insert_eq.
  cbn [config isProduction]. cbv zeta.
  split; [reflexivity|]. split; [apply fresh_unallocated|].
  rewrite !lookup_insert_eq. split; [reflexivity|]. split; [reflexivity|].
  split; [|split].
  - intros l' Hl'. by rewrite insert_insert_eq, !lookup_insert_ne.
  - rewrite insert_insert_eq, !dom_insert_L. reflexivity.
  - erewrite module_exports_at by apply lookup_insert_eq.
    cbn [config isProduction]. by rewrite write_mode_idemp, !insert_insert_eq.
Qed.

(** * What the two branches share *)

(** C5. The production and the development configuration have the same
    number of rules with the same tests in the same order, and they are
    equal once [mode], [devtool] and the first loader of the sass/scss rule
    are blanked. *)
Theorem branches_differ_in_three_places ho (h0 h0' : heap) n n' :
  let prod := produced ho true h0 n in
  let dev := produced ho false h0' n' in
  length (rules prod) = length (rules dev)
  /\ map (get "test") (rules prod) = map (get "test") (rules dev)
  /\ blank_mode_dependent prod = blank_mode_dependent dev.
Proof. cbv zeta. rewrite !produced_eq. repeat split. Qed.

(** C8. In both branches [resolve.alias] has exactly one property, [@],
    whose value is [path.resolve(__dirname, './src/')]. *)
Theorem alias_single_entry ho b (h0 : heap) n :
  let alias := get "alias" (get "resolve" (produced ho b h0 n)) in
  keys alias = ["@"]
  /\ get "@" alias = VStr (path_resolve ho (__dirname ho) "./src/")
  /\ alias = VObject [("@", VStr (path_resolve ho (__dirname ho) "./src/"))].
Proof. cbv zeta. rewrite produced_eq. by destruct b. Qed.

(** C9. In both branches the rule for plain css files starts with
    MiniCssExtractPlugin.loader, and that rule is the same value in both:
    the branch changes the first loader of the sass/scss rule only. *)
Theorem css_rule_always_extracts ho b (h0 h0' : heap) n n' :
  get "test" (rule 1 (produced ho b h0 n)) = VRegExp css_test
  /\ step 0 (rule 1 (produced ho b h0 n))
     = VStr (MiniCssExtractPlugin_loader ho)
  /\ rule 1 (produced ho true h0 n) = rule 1 (produced ho false h0' n')
  /\ step 0 (rule 0 (produced ho b h0 n))
     = VStr (if b then MiniCssExtractPlugin_loader ho else "style-loader").
Proof. rewrite !produced_eq. by destruct b. Qed.

(** The shape of the css-loader entries: the one of the sass/scss rule has
    [options.modules.mode] equal to [icss], the one of the plain css rule is
    the bare string (no options), and the sass/scss rule is the only rule
    with a loader entry in icss mode. *)
Lemma icss_only_on_sass_rule ho b (h0 : heap) n :
  let cfg := produced ho b h0 n in
  get "loader" (step 1 (rule 0 cfg)) = VStr "css-loader"
  /\ get "modules" (get "options" (step 1 (rule 0 cfg)))
     = VObject [("mode", VStr "icss")]
  /\ step 1 (rule 1 cfg) = VStr "css-loader"
  /\ has_prop "modules" (get "options" (step 1 (rule 1 cfg))) = false
  /\ map uses_icss (rules cfg) = [true; false; false; false; false].
Proof.
  cbv zeta. rewrite produced_eq.
  by destruct b.
Qed.

(** * The rule tests *)

Section MatcherFacts.

Variable up : N -> N.

Lemma same_char_norm ic a ch :
  same_char up ic a ch = true -> norm up ic ch = norm up ic a.
Proof.
  unfold same_char, norm. destruct ic; intros H.
  - symmetry. by apply N.eqb_eq.
  - symmetry. by apply N.eqb_eq.
Qed.

Local Ltac consumed :=
  repeat split; simpl; auto; try discriminate; try done.

(** A successful match consumes a word of the pattern and hands the rest
    to the continuation; behind an end anchor nothing is left. *)
Lemma rmatch_sound ic r : forall x k,
  rmatch up ic r x k = true ->
  exists w y, x = w ++ y /\ k y = true
              /\ In (map (norm up ic) w) (words up ic r)
              /\ (anchored r = true -> y = []).
Proof.
  induction r as [|c|cs|r1 IH1 r2 IH2|r1 IH1 r2 IH2|r1 IH1|];
    intros x k H; simpl in H.
  - exists [], x. consumed.
  - destruct x as [|ch x']; [discriminate|].
    apply andb_true_iff in H as [Hc Hk].
    exists [ch], x'. simpl. rewrite (same_char_norm _ _ _ Hc). consumed.
  - destruct x as [|ch x']; [discriminate|].
    apply andb_true_iff in H as [Hc Hk].
    apply existsb_exists in Hc as (c & Hin & Hc).
    exists [ch], x'. simpl. rewrite (same_char_norm _ _ _ Hc). consumed.
    apply in_map_iff. by exists c.
  - apply IH1 in H as (w1 & y1 & -> & H & Hw1 & _).
    apply IH2 in H as (w2 & y2 & -> & Hk & Hw2 & Hy).
    exists (w1 ++ w2), y2. rewrite <- app_assoc, map_app. consumed.
    apply in_flat_map. exists (map (norm up ic) w1). split; [done|].
    apply in_map_iff. by exists (map (norm up ic) w2).
  - apply orb_true_iff in H as [H|H];
      [apply IH1 in H|apply IH2 in H];
      destruct H as (w & y & -> & Hk & Hw & Hy);
      exists w, y; consumed;
      try (apply in_app_iff; auto);
      rewrite andb_true_iff; intros []; auto.
  - apply orb_true_iff in H as [H|H].
    + apply IH1 in H as (w & y & -> & Hk & Hw & _).
      match type of Hk with
      | (if ?c then _ else _) = _ => destruct c; [discriminate|]
      end.
      exists w, y. consumed. apply in_app_iff. auto.
    + exists [], x. consumed. apply in_app_iff. simpl. auto.
  - destruct x; [|discriminate]. exists [], []. consumed.
Qed.

Lemma search_sound ic r s :
  search up ic r s = true ->
  exists p x, s = p ++ x /\ rmatch up ic r x (fun _ => true) = true.
Proof.
  induction s as [|a s IH]; simpl; intros H.
  - apply orb_true_iff in H as [H|H]; [|discriminate]. by exists [], [].
  - apply orb_true_iff in H as [H|H].
    + by exists [], (a :: s).
    + apply IH in H as (p & x & -> & H). by exists (a :: p), x.
Qed.

Lemma norm_false_id w : map (norm up false) w = w.
Proof. induction w; simpl; by f_equal. Qed.

(** A subject accepted by an anchored pattern ends, once canonicalized,
    in one of the canonicalized words of the pattern. *)
Lemma test_suffix re s :
  anchored (source re) = true ->
  test up re s = true ->
  exists u, In u (upper_words up re)
            /\ u `suffix_of` map (Canonicalize up) s.
Proof.
  intros Ha H. unfold test in H.
  apply search_sound in H as (p & x & -> & H).
  apply rmatch_sound in H as (w & y & -> & _ & Hw & Hy).
  rewrite (Hy Ha), app_nil_r.
  exists (map (Canonicalize up) w). split.
  - unfold upper_words. destruct (ignoreCase re).
    + exact Hw.
    + rewrite norm_false_id in Hw. by apply in_map.
  - exists (map (Canonicalize up) p). apply map_app.
Qed.

Lemma apart_disjoint re1 re2 s :
  anchored (source re1) = true ->
  anchored (source re2) = true ->
  apart up re1 re2 = true ->
  test up re1 s = true -> test up re2 s = true -> False.
Proof.
  intros A1 A2 Hap T1 T2.
  apply test_suffix in T1 as (u1 & In1 & S1); [|done].
  apply test_suffix in T2 as (u2 & In2 & S2); [|done].
  unfold apart in Hap.
  rewrite forallb_forall in Hap. specialize (Hap u1 In1).
  rewrite forallb_forall in Hap. specialize (Hap u2 In2).
  apply negb_true_iff, orb_false_iff in Hap as [H12 H21].
  apply bool_decide_eq_false in H12, H21.
  destruct (suffix_weak_total _ _ _ S1 S2); contradiction.
Qed.

(** Every subject that ends in [js] is accepted by the pattern of the
    script rule. *)
Lemma js_test_any_prefix p : test up js_test (p ++ units "js") = true.
Proof.
  unfold test. simpl ignoreCase. simpl source.
  induction p as [|a p IH].
  - reflexivity.
  - change ((a :: p) ++ units "js") with (a :: (p ++ units "js")).
    simpl. simpl in IH. rewrite IH. apply orb_true_r.
Qed.

(** The words of any two of the five patterns are apart. *)
Lemma tests_apart :
  apart up sass_test css_test = true
  /\ apart up sass_test js_test = true
  /\ apart up sass_test ts_test = true
  /\ apart up sass_test asset_test = true
  /\ apart up css_test js_test = true
  /\ apart up css_test ts_test = true
  /\ apart up css_test asset_test = true
  /\ apart up js_test ts_test = true
  /\ apart up js_test asset_test = true
  /\ apart up ts_test asset_test = true.
Proof. repeat split; vm_compute; reflexivity. Qed.

Local Ltac clash A Ta Tb :=
  eapply apart_disjoint; [ | | exact A | exact Ta | exact Tb];
  reflexivity.

Lemma at_most_one_test s :
  length (List.filter (fun re => test up re s)
            [sass_test; css_test; js_test; ts_test; asset_test]) <= 1.
Proof.
  destruct tests_apart
    as (A12 & A13 & A14 & A15 & A23 & A24 & A25 & A34 & A35 & A45).
  cbn [List.filter].
  destruct (test up sass_test s) eqn:T1;
    destruct (test up css_test s) eqn:T2;
    destruct (test up js_test s) eqn:T3;
    destruct (test up ts_test s) eqn:T4;
    destruct (test up asset_test s) eqn:T5;
    cbn [length]; try lia; exfalso;
    first [ clash A12 T1 T2 | clash A13 T1 T3 | clash A14 T1 T4
          | clash A15 T1 T5 | clash A23 T2 T3 | clash A24 T2 T4
          | clash A25 T2 T5 | clash A34 T3 T4 | clash A35 T3 T5
          | clash A45 T4 T5 ].
Qed.

(** Counting the rules that accept a subject is counting their
    patterns. *)
Lemma matching_length rs res s :
  map (get "test") rs = map VRegExp res ->
  length (List.filter (rule_matches up s) rs)
  = length (List.filter (fun re => test up re s) res).
Proof.
  revert res. induction rs as [|r rs IH]; intros [|re res] H;
    simpl in H; try discriminate; [done|].
  injection H as Hr Hrs. cbn [List.filter].
  unfold rule_matches at 1. rewrite Hr.
  destruct (test up re s); cbn [length]; by rewrite (IH res).
Qed.

(** C6. In both branches the rules of the returned configuration are the
    rules of the literal, in the order sass/scss, css, js, ts/tsx,
    image/font; and for every string at most one rule has a pattern that
    accepts it. *)
Theorem rule_tests_disjoint_and_ordered ho b (h0 : heap) n (s : list N) :
  let cfg := produced ho b h0 n in
  rules cfg
  = rules (VObject
             (config_literal ho b (VStr (MiniCssExtractPlugin_loader ho))))
  /\ map (get "test") (rules cfg)
     = [VRegExp sass_test; VRegExp css_test; VRegExp js_test;
        VRegExp ts_test; VRegExp asset_test]
  /\ length (matching_rules up cfg s) <= 1
  /\ length (List.filter (fun re => test up re s)
               [sass_test; css_test; js_test; ts_test; asset_test]) <= 1.
Proof.
  cbv zeta. rewrite produced_eq.
  split; [by destruct b|]. split; [by destruct b|].
  split; [|apply at_most_one_test].
  unfold matching_rules.
  rewrite (matching_length _
             [sass_test; css_test; js_test; ts_test; asset_test])
    by (by destruct b).
  apply at_most_one_test.
Qed.

(** C7. The file name [plainjs] ends in [js], does not end in [.js], and
    is accepted by the pattern of the script rule of the returned
    configuration. *)
Theorem js_test_accepts_without_dot ho b (h0 : heap) n :
  units "js" `suffix_of` units "plainjs"
  /\ ~ units ".js" `suffix_of` units "plainjs"
  /\ get "test" (rule 2 (produced ho b h0 n)) = VRegExp js_test
  /\ rule_matches up (units "plainjs") (rule 2 (produced ho b h0 n))
     = true.
Proof.
  rewrite produced_eq.
  split; [by exists (units "plain")|].
  split; [|by destruct b].
  apply (bool_decide_unpack _). by vm_compute.
Qed.

End MatcherFacts.

(** * What each pattern accepts *)

Section Acceptance.

Variable up : N -> N.

Lemma norm_same_char ic a ch :
  norm up ic ch = norm up ic a -> same_char up ic a ch = true.
Proof.
  unfold same_char, norm. destruct ic; intros H; apply N.eqb_eq; by symmetry.
Qed.

Lemma map_norm_nil ic w : map (norm up ic) w = [] -> w = [].
Proof. by destruct w. Qed.

Lemma map_norm_single ic w a :
  map (norm up ic) w = [a] -> exists ch, w = [ch] /\ norm up ic ch = a.
Proof.
  destruct w as [|ch [|]]; try discriminate. intros [= <-]. by exists ch.
Qed.

(** A subject that starts with a word of an anchor-free pattern is matched,
    whatever follows, as long as the continuation accepts the rest. *)
Lemma rmatch_complete_free ic r :
  anchor_free r = true ->
  forall w y k,
    In (map (norm up ic) w) (words up ic r) ->
    k y = true ->
    rmatch up ic r (w ++ y) k = true.
Proof.
  induction r as [|c|cs|r1 IH1 r2 IH2|r1 IH1 r2 IH2|r1 IH1|];
    simpl; intros Hf w y k Hw Hk; try discriminate.
  - destruct Hw as [Hw|[]]. symmetry in Hw.
    by rewrite (map_norm_nil _ _ Hw).
  - destruct Hw as [Hw|[]]. symmetry in Hw.
    apply map_norm_single in Hw as (ch & -> & Hch). simpl.
    by rewrite (norm_same_char _ _ _ Hch).
  - apply in_map_iff in Hw as (c & Hw & Hc). symmetry in Hw.
    apply map_norm_single in Hw as (ch & -> & Hch). simpl.
    rewrite Hk, andb_true_r. apply existsb_exists. exists c.
    split; [done|]. by apply norm_same_char.
  - apply andb_true_iff in Hf as [Hf1 Hf2].
    apply in_flat_map in Hw as (u1 & Hu1 & Hw).
    apply in_map_iff in Hw as (u2 & Hw & Hu2). symmetry in Hw.
    apply map_eq_app in Hw as (w1 & w2 & -> & <- & <-).
    rewrite <- app_assoc. apply IH1; [done..|]. by apply IH2.
  - apply andb_true_iff in Hf as [Hf1 Hf2]. apply orb_true_iff.
    apply in_app_iff in Hw as [Hw|Hw]; [left; by apply IH1|right; by apply IH2].
  - apply orb_true_iff.
    destruct w as [|ch w]; [right; exact Hk|].
    apply in_app_iff in Hw as [Hw|[Hw|[]]]; [|discriminate].
    left. apply IH1; [done..|].
    replace (length y =? length ((ch :: w) ++ y))%nat with false; [done|].
    symmetry. apply Nat.eqb_neq. rewrite length_app. simpl. lia.
Qed.

Lemma rmatch_complete_tail ic r :
  tail_anchored r = true ->
  forall w k,
    In (map (norm up ic) w) (words up ic r) ->
    k [] = true ->
    rmatch up ic r w k = true.
Proof.
  induction r as [| | |r1 _ r2 IH2| | |];
    simpl; intros Ht w k Hw Hk; try discriminate.
  - apply andb_true_iff in Ht as [Hf Ht].
    apply in_flat_map in Hw as (u1 & Hu1 & Hw).
    apply in_map_iff in Hw as (u2 & Hw & Hu2). symmetry in Hw.
    apply map_eq_app in Hw as (w1 & w2 & -> & <- & <-).
    apply rmatch_complete_free; [done..|]. by apply IH2.
  - destruct Hw as [Hw|[]]. symmetry in Hw.
    by rewrite (map_norm_nil _ _ Hw).
Qed.

Lemma tail_anchored_anchored r : tail_anchored r = true -> anchored r = true.
Proof.
  induction r; simpl; try done. intros H.
  apply andb_true_iff in H as [_ H]. auto.
Qed.

Lemma search_complete ic r p x :
  rmatch up ic r x (fun _ => true) = true -> search up ic r (p ++ x) = true.
Proof.
  intros H. induction p as [|a p IH]; simpl.
  - destruct x; simpl; by rewrite H.
  - rewrite IH. apply orb_true_r.
Qed.

(** A tail-anchored pattern accepts a subject exactly when the subject, in
    the normal form of the pattern, ends in one of its words. *)
Lemma test_tail_iff re s :
  tail_anchored (source re) = true ->
  test up re s = true
  <-> exists u, In u (words up (ignoreCase re) (source re))
                /\ u `suffix_of` map (norm up (ignoreCase re)) s.
Proof.
  intros Ht. unfold test. split.
  - intros H. apply search_sound in H as (p & x & -> & H).
    apply rmatch_sound in H as (w & y & -> & _ & Hw & Hy).
    rewrite (Hy (tail_anchored_anchored _ Ht)), app_nil_r.
    eexists. split; [exact Hw|].
    exists (map (norm up (ignoreCase re)) p). apply map_app.
  - intros (u & Hu & k & Hk).
    apply map_eq_app in Hk as (p & w & -> & _ & <-).
    apply search_complete. by apply rmatch_complete_tail.
Qed.

(** An anchor-free pattern accepts a subject exactly when one of its words
    occurs somewhere in the subject. *)
Lemma test_free_iff re s :
  anchor_free (source re) = true ->
  test up re s = true
  <-> exists p w y, s = p ++ w ++ y
        /\ In (map (norm up (ignoreCase re)) w)
              (words up (ignoreCase re) (source re)).
Proof.
  intros Hf. unfold test. split.
  - intros H. apply search_sound in H as (p & x & -> & H).
    apply rmatch_sound in H as (w & y & -> & _ & Hw & _). by exists p, w, y.
  - intros (p & w & y & -> & Hw).
    apply search_complete. by apply rmatch_complete_free.
Qed.

End Acceptance.

Section RuleAcceptance.

Variable up : N -> N.

Lemma ex_in_map {A B} (f : A -> B) (l : list A) (P : B -> Prop) :
  (exists u, In u (map f l) /\ P u) <-> (exists e, In e l /\ P (f e)).
Proof.
  split.
  - intros (u & Hu & HP). apply in_map_iff in Hu as (e & <- & He). eauto.
  - intros (e & He & HP). exists (f e). split; [by apply in_map|done].
Qed.

(** The endings a case-insensitive rule test asks for, read on the
    canonicalized subject. *)
Lemma ignore_case_endings re (ends : list string) s :
  tail_anchored (source re) = true ->
  ignoreCase re = true ->
  words up true (source re) = map units ends ->
  test up re s = true
  <-> exists e, In e ends /\ units e `suffix_of` map (Canonicalize up) s.
Proof.
  intros Ht Hic Hw. rewrite test_tail_iff by done. rewrite Hic, Hw.
  apply ex_in_map.
Qed.

(** X1. The test of the sass/scss rule accepts exactly the names that end,
    letter case aside, in [.sass] or [.scss]. *)
Theorem sass_test_accepts s :
  test up sass_test s = true
  <-> exists e, In e [".SASS"; ".SCSS"]
                /\ units e `suffix_of` map (Canonicalize up) s.
Proof. by apply ignore_case_endings. Qed.

(** X2. The test of the css rule accepts exactly the names that end, letter
    case aside, in [.css]. *)
Theorem css_test_accepts s :
  test up css_test s = true
  <-> units ".CSS" `suffix_of` map (Canonicalize up) s.
Proof.
  rewrite (ignore_case_endings css_test [".CSS"]) by done. split.
  - by intros (e & [<-|[]] & H).
  - intros H. exists ".CSS". by split; [left|].
Qed.

(** X3. The test of the script rule accepts exactly the names whose last two
    code units are the lower-case letters [js]: the optional dot of the
    pattern excludes nothing, and letter case matters. *)
Theorem js_test_accepts s :
  test up js_test s = true <-> units "js" `suffix_of` s.
Proof.
  rewrite test_tail_iff by done. cbn [ignoreCase js_test].
  rewrite norm_false_id.
  change (words up false (source js_test)) with (map units [".js"; "js"]).
  rewrite ex_in_map. split.
  - intros (e & [<-|[<-|[]]] & H); [|done].
    etrans; [|exact H]. by exists (units ".").
  - intros H. exists "js". split; [right; by left|done].
Qed.

(** X4. The test of the typed-script rule accepts exactly the names that
    end, letter case aside, in [.ts] or [.tsx]. *)
Theorem ts_test_accepts s :
  test up ts_test s = true
  <-> exists e, In e [".TS"; ".TSX"]
                /\ units e `suffix_of` map (Canonicalize up) s.
Proof. by apply ignore_case_endings. Qed.

(** X5. The test of the asset rule accepts exactly the names that end,
    letter case aside, in one of the eight listed extensions. *)
Theorem asset_test_accepts s :
  test up asset_test s = true
  <-> exists e, In e [".EOT"; ".SVG"; ".TTF"; ".WOFF"; ".WOFF2"; ".PNG";
                      ".JPG"; ".GIF"]
                /\ units e `suffix_of` map (Canonicalize up) s.
Proof. by apply ignore_case_endings. Qed.

(** X6. The [exclude] pattern of the script rule is not anchored: it accepts
    exactly the paths that contain [node_modules] somewhere. *)
Theorem node_modules_accepts s :
  test up node_modules_re s = true
  <-> exists p y, s = p ++ units "node_modules" ++ y.
Proof.
  rewrite test_free_iff by done. cbn [ignoreCase node_modules_re]. split.
  - intros (p & w & y & -> & [Hw|[]]). rewrite norm_false_id in Hw.
    exists p, y. by rewrite <- Hw.
  - intros (p & y & ->). exists p, (units "node_modules"), y.
    split; [done|]. rewrite norm_false_id. by left.
Qed.

End RuleAcceptance.

(** * Letter case *)

Section LetterCase.

Variable up : N -> N.

Lemma Canonicalize_ascii_upper ch :
  Canonicalize up (ascii_upper ch) = Canonicalize up ch.
Proof.
  unfold ascii_upper.
  destruct ((97 <=? ch) && (ch <=? 122))%N eqn:E; [|done].
  apply andb_true_iff in E as [E1 E2].
  apply N.leb_le in E1, E2. unfold Canonicalize.
  replace (ch - 32 <? 128)%N with true by (symmetry; apply N.ltb_lt; lia).
  replace (ch <? 128)%N with true by (symmetry; apply N.ltb_lt; lia).
  replace (97 <=? ch - 32)%N with false by (symmetry; apply N.leb_gt; lia).
  replace (97 <=? ch)%N with true by (symmetry; apply N.leb_le; lia).
  replace (ch <=? 122)%N with true by (symmetry; apply N.leb_le; lia).
  done.
Qed.

Lemma map_Canonicalize_upper s :
  map (Canonicalize up) (map ascii_upper s) = map (Canonicalize up) s.
Proof.
  induction s as [|ch s IH]; simpl; [done|].
  by rewrite Canonicalize_ascii_upper, IH.
Qed.

Lemma ignore_case_same_verdict re s1 s2 :
  tail_anchored (source re) = true ->
  ignoreCase re = true ->
  map ascii_upper s1 = map ascii_upper s2 ->
  test up re s1 = test up re s2.
Proof.
  intros Ht Hic H. apply eq_true_iff_eq.
  rewrite !test_tail_iff by done. rewrite Hic.
  change (norm up true) with (Canonicalize up).
  rewrite <- (map_Canonicalize_upper s1), <- (map_Canonicalize_upper s2).
  by rewrite H.
Qed.

(** X7. Two names that differ only in the case of ASCII letters get the
    same verdict from the sass/scss, css, ts/tsx and asset tests. *)
Theorem flagged_tests_ignore_case s1 s2 :
  map ascii_upper s1 = map ascii_upper s2 ->
  Forall (fun re => test up re s1 = test up re s2)
         [sass_test; css_test; ts_test; asset_test].
Proof.
  intros H. repeat constructor; by apply ignore_case_same_verdict.
Qed.

End LetterCase.

Lemma flagged_tests_ignore_case_witness :
  map ascii_upper (units "Theme.SCSS") = map ascii_upper (units "theme.scss")
  /\ Forall (fun re => test (fun ch => ch) re (units "Theme.SCSS")
                       = test (fun ch => ch) re (units "theme.scss"))
            [sass_test; css_test; ts_test; asset_test].
Proof.
  split; [reflexivity|].
  apply (flagged_tests_ignore_case (fun ch => ch)). reflexivity.
Defined.

(** * Which rule takes a file *)

Section RuleChoice.

Variable up : N -> N.

Lemma suffix_clash (u v S : list N) :
  u `suffix_of` S -> v `suffix_of` S ->
  bool_decide (u `suffix_of` v) || bool_decide (v `suffix_of` u) = false ->
  False.
Proof.
  intros Hu Hv H. apply orb_false_iff in H as [H1 H2].
  apply bool_decide_eq_false in H1, H2.
  destruct (suffix_weak_total _ _ _ Hu Hv); contradiction.
Qed.

(** A subject whose canonical form ends in [u0] is rejected by a pattern all
    of whose words are apart from [u0]. *)
Lemma ends_apart_rejects re u0 s :
  anchored (source re) = true ->
  u0 `suffix_of` map (Canonicalize up) s ->
  ends_apart up u0 re = true ->
  test up re s = false.
Proof.
  intros Ha Hu0 Hap. destruct (test up re s) eqn:T; [exfalso|done].
  apply test_suffix in T as (u & Hu & Hs); [|done].
  unfold ends_apart in Hap. rewrite forallb_forall in Hap.
  specialize (Hap u Hu). apply negb_true_iff in Hap.
  exact (suffix_clash _ _ _ Hs Hu0 Hap).
Qed.

Lemma canonical_ending p e :
  map (Canonicalize up) (units e)
  `suffix_of` map (Canonicalize up) (p ++ units e).
Proof. exists (map (Canonicalize up) p). apply map_app. Qed.

(** The rules that accept a subject, from the verdicts of the five tests. *)
Lemma matching_rules_verdicts ho b (h0 : heap) n s :
  let cfg := produced ho b h0 n in
  matching_rules up cfg s
  = map snd
      (List.filter fst
         [ (test up sass_test s, rule 0 cfg);
           (test up css_test s, rule 1 cfg);
           (test up js_test s, rule 2 cfg);
           (test up ts_test s, rule 3 cfg);
           (test up asset_test s, rule 4 cfg) ]).
Proof.
  cbv zeta. rewrite produced_eq. unfold matching_rules.
  destruct b; cbn -[test];
    destruct (test up sass_test s), (test up css_test s),
      (test up js_test s), (test up ts_test s), (test up asset_test s);
    reflexivity.
Qed.

Lemma rejects_ending re e p :
  anchored (source re) = true ->
  ends_apart up (map (Canonicalize up) (units e)) re = true ->
  test up re (p ++ units e) = false.
Proof.
  intros Ha Hap. eapply ends_apart_rejects; [done| |exact Hap].
  apply canonical_ending.
Qed.

Lemma accepts_ending re e p :
  tail_anchored (source re) = true ->
  ignoreCase re = true ->
  In (map (Canonicalize up) (units e)) (words up true (source re)) ->
  test up re (p ++ units e) = true.
Proof.
  intros Ht Hic Hw. apply test_tail_iff; [done|]. rewrite Hic.
  eexists. split; [exact Hw|]. apply canonical_ending.
Qed.

Lemma js_accepts_ending p : test up js_test (p ++ units ".js") = true.
Proof.
  apply js_test_accepts. exists (p ++ units "."). by rewrite <- app_assoc.
Qed.

Local Ltac settle :=
  first [ reflexivity | vm_compute; reflexivity
        | vm_compute; tauto ].

(** X8. [.jsx] is among [resolve.extensions], yet in either branch no rule
    of the returned configuration accepts a name that ends in [.jsx]. *)
Theorem jsx_files_have_no_rule ho b (h0 : heap) n p :
  let cfg := produced ho b h0 n in
  In (VStr ".jsx") (extensions cfg)
  /\ matching_rules up cfg (p ++ units ".jsx") = [].
Proof.
  cbv zeta. split.
  - rewrite produced_eq. destruct b; vm_compute; tauto.
  - rewrite matching_rules_verdicts.
    rewrite !(rejects_ending _ ".jsx") by settle. reflexivity.
Qed.

(** X9. The other extensions of [resolve.extensions] each have exactly one
    rule: names that end in [.tsx] or [.ts] are accepted by the ts/tsx rule
    only, names that end in [.js] by the script rule only. *)
Theorem listed_extensions_have_one_rule ho b (h0 : heap) n p :
  let cfg := produced ho b h0 n in
  extensions cfg
  = [VStr ".tsx"; VStr ".ts"; VStr ".jsx"; VStr ".js"; VStr "..."]
  /\ matching_rules up cfg (p ++ units ".tsx") = [rule 3 cfg]
  /\ matching_rules up cfg (p ++ units ".ts") = [rule 3 cfg]
  /\ matching_rules up cfg (p ++ units ".js") = [rule 2 cfg].
Proof.
  cbv zeta. split; [rewrite produced_eq; by destruct b|].
  rewrite !matching_rules_verdicts.
  rewrite (accepts_ending ts_test ".tsx") by settle.
  rewrite !(rejects_ending _ ".tsx") by settle.
  rewrite (accepts_ending ts_test ".ts") by settle.
  rewrite !(rejects_ending _ ".ts") by settle.
  rewrite js_accepts_ending.
  rewrite !(rejects_ending _ ".js") by settle.
  done.
Qed.

(** X10. Style sheets: names that end in [.scss] or [.sass] are accepted by
    the sass/scss rule only, names that end in [.css] by the css rule
    only. *)
Theorem style_files_have_one_rule ho b (h0 : heap) n p :
  let cfg := produced ho b h0 n in
  matching_rules up cfg (p ++ units ".scss") = [rule 0 cfg]
  /\ matching_rules up cfg (p ++ units ".sass") = [rule 0 cfg]
  /\ matching_rules up cfg (p ++ units ".css") = [rule 1 cfg].
Proof.
  cbv zeta. rewrite !matching_rules_verdicts.
  rewrite (accepts_ending sass_test ".scss") by settle.
  rewrite !(rejects_ending _ ".scss") by settle.
  rewrite (accepts_ending sass_test ".sass") by settle.
  rewrite !(rejects_ending _ ".sass") by settle.
  rewrite (accepts_ending css_test ".css") by settle.
  rewrite !(rejects_ending _ ".css") by settle.
  done.
Qed.

(** X11. The script rule is the only one whose test is case sensitive: a
    name that ends in upper-case [.JS] is accepted by no rule, while one
    that ends in upper-case [.TS] is accepted by the ts/tsx rule. *)
Theorem upper_case_js_has_no_rule ho b (h0 : heap) n p :
  let cfg := produced ho b h0 n in
  matching_rules up cfg (p ++ units ".JS") = []
  /\ matching_rules up cfg (p ++ units ".TS") = [rule 3 cfg].
Proof.
  cbv zeta. rewrite !matching_rules_verdicts.
  assert (test up js_test (p ++ units ".JS") = false) as ->.
  { destruct (test up js_test _) eqn:T; [exfalso|done].
    apply js_test_accepts in T.
    apply (suffix_clash _ (units ".JS") _ T); [|by vm_compute].
    by exists p. }
  rewrite !(rejects_ending _ ".JS") by settle.
  rewrite (accepts_ending ts_test ".TS") by settle.
  rewrite !(rejects_ending _ ".TS") by settle.
  done.
Qed.


(** X13. The pattern of the README rule is narrower than the sass/scss test
    of the configuration: whatever it accepts the configuration accepts,
    but it rejects [.sass] and upper-case [.SCSS] names; on the names it
    accepts, both rules give css-loader the same [modules] option. *)
Theorem readme_rule_is_narrower ho b (h0 : heap) n :
  let cfg := produced ho b h0 n in
  (forall s, test up readme_scss_test s = true ->
             test up sass_test s = true)
  /\ (forall p, test up readme_scss_test (p ++ units ".sass") = false
               /\ test up sass_test (p ++ units ".sass") = true)
  /\ (forall p, test up readme_scss_test (p ++ units ".SCSS") = false
               /\ test up sass_test (p ++ units ".SCSS") = true)
  /\ rules readme_config = [readme_rule]
  /\ get "modules" (get "options" (step 1 readme_rule))
     = get "modules" (get "options" (step 1 (rule 0 cfg))).
Proof.
  cbv zeta.
  assert (forall s, test up readme_scss_test s = true ->
                    units ".scss" `suffix_of` s) as Hscss.
  { intros s T. apply test_tail_iff in T as (u & [<-|[]] & Hu); [|done].
    cbn [ignoreCase readme_scss_test] in Hu.
    by rewrite norm_false_id in Hu. }
  assert (forall e p, bool_decide (units ".scss" `suffix_of` units e)
                      || bool_decide (units e `suffix_of` units ".scss")
                      = false ->
                      test up readme_scss_test (p ++ units e) = false)
    as Hrej.
  { intros e p He. destruct (test up readme_scss_test _) eqn:T; [|done].
    exfalso. apply Hscss in T.
    apply (suffix_clash _ (units e) _ T); [by exists p|done]. }
  split; [|split; [|split; [|split]]].
  - intros s T. apply Hscss in T as [p ->].
    by apply accepts_ending; settle.
  - intros p. split; [by apply Hrej|by apply accepts_ending; settle].
  - intros p. split; [by apply Hrej|by apply accepts_ending; settle].
  - reflexivity.
  - rewrite produced_eq. by destruct b.
Qed.

End RuleChoice.

(** * The factory on any heap *)

Lemma keys_set_prop k v (o : object) :
  map fst o `prefix_of` map fst (set_prop k v o).
Proof.
  induction o as [|[k' v'] o IH]; simpl.
  - by exists [k].
  - destruct (String.eqb k k'); simpl; [done|].
    destruct IH as [t Ht]. exists t. by rewrite Ht.
Qed.

(** X14. Whatever properties [config] holds when the factory is invoked,
    the factory sets [mode] to the name of the branch, sets [devtool] in
    the development branch and leaves it as it is in the production
    branch, leaves every other property as it is, keeps the existing
    properties in their order, and changes no other object. *)
Theorem factory_keeps_other_properties m (h : heap) (o : object) :
  h !! config m = Some o ->
  let r := module_exports m h in
  fst r = config m
  /\ exists o1,
       snd r !! config m = Some o1
       /\ lookup_prop "mode" o1
          = Some (VStr (if isProduction m then "production"
                        else "development"))
       /\ lookup_prop "devtool" o1
          = (if isProduction m then lookup_prop "devtool" o
             else Some (VStr "source-map"))
       /\ (forall k, k <> "mode" -> k <> "devtool" ->
                     lookup_prop k o1 = lookup_prop k o)
       /\ map fst o `prefix_of` map fst o1
       /\ (forall l', l' <> config m -> snd r !! l' = h !! l').
Proof.
  intros Ho. cbv zeta. rewrite (module_exports_at _ _ _ Ho).
  cbn [fst snd]. split; [done|]. eexists. split; [apply lookup_insert_eq|].
  unfold write_mode. destruct (isProduction m).
  - split; [apply lookup_set_prop_eq|].
    split; [by rewrite lookup_set_prop_ne|].
    split; [intros k Hm _; by rewrite lookup_set_prop_ne|].
    split; [apply keys_set_prop|].
    intros l' Hl. by rewrite lookup_insert_ne.
  - split; [rewrite lookup_set_prop_ne by done; apply lookup_set_prop_eq|].
    split; [apply lookup_set_prop_eq|].
    split; [intros k Hm Hd; by rewrite !lookup_set_prop_ne|].
    split; [etrans; apply keys_set_prop|].
    intros l' Hl. by rewrite lookup_insert_ne.
Qed.

Lemma factory_keeps_other_properties_witness :
  let m := mkScope (VStr "loader.js") true 1%positive in
  let o := [("entry", VStr "./a.js"); ("devtool", VStr "eval")] in
  let h : heap := {[ 1%positive := o ]} in
  h !! config m = Some o
  /\ exists o1,
       snd (module_exports m h) !! config m = Some o1
       /\ lookup_prop "devtool" o1 = Some (VStr "eval").
Proof.
  cbv zeta. split; [reflexivity|].
  destruct (factory_keeps_other_properties
              (mkScope (VStr "loader.js") true 1%positive)
              {[ 1%positive :=
                   [("entry", VStr "./a.js"); ("devtool", VStr "eval")] ]}
              [("entry", VStr "./a.js"); ("devtool", VStr "eval")])
    as (_ & o1 & H1 & _ & H2 & _); [reflexivity|].
  exists o1. split; [exact H1|exact H2].
Defined.

(** X15. Each evaluation of the module body allocates its own [config]:
    a second load, even for another environment, leaves the first object
    and every older heap cell as they are, the two references differ, and
    the factory of either module leaves the object of the other alone. *)
Theorem separate_loads_do_not_share ho1 ho2 (h0 : heap) :
  let r1 := load ho1 h0 in
  let r2 := load ho2 (snd r1) in
  let c1 := config (fst r1) in
  let c2 := config (fst r2) in
  c1 <> c2
  /\ (forall l, l <> c2 -> snd r2 !! l = snd r1 !! l)
  /\ (forall l, l <> c1 -> l <> c2 -> snd r2 !! l = h0 !! l)
  /\ snd (module_exports (fst r2) (snd r2)) !! c1 = snd r1 !! c1
  /\ snd (module_exports (fst r1) (snd r2)) !! c2 = snd r2 !! c2.
Proof.
  cbv zeta. unfold load, module_body. cbn [fst snd config].
  set (l1 := fresh (dom h0)).
  set (h1 := <[l1 := _]> h0).
  set (l2 := fresh (dom h1)).
  assert (l1 <> l2) as Hne.
  { intros E. pose proof (fresh_unallocated h1) as Hf. fold l2 in Hf.
    rewrite <- E in Hf. unfold h1 in Hf.
    by rewrite lookup_insert_eq in Hf. }
  split; [done|].
  split; [intros l Hl; by rewrite lookup_insert_ne|].
  split; [intros l H1 H2; unfold h1; by rewrite !lookup_insert_ne|].
  rewrite !module_exports_alter. cbn [fst snd config].
  assert (l2 <> l1) as Hne' by (intros E; by apply Hne).
  split.
  - rewrite lookup_alter_ne by done. by rewrite lookup_insert_ne.
  - by rewrite lookup_alter_ne.
Qed.

(** * Which files css-loader sees, and with which options *)


Section CssLoader.

Variable up : N -> N.
Variable css_loader : value -> list N -> bool.


End CssLoader.

